(** * A shallow embedding of the REST handlers of [seq2seq/serve_seq2seq.py]

    The handlers are closures defined inside [main]; each one is translated
    to a function over an explicit world (database files on disk, the
    pipeline's schema cache, a trace of the SQL sent to the engine).  The
    sqlite3 module, the generation pipelines and the serializer are external
    to the file and enter as interfaces. *)

From Stdlib Require Import Ascii.
From stdpp Require Import base option list strings gmap.

Local Open Scope string_scope.
Local Open Scope list_scope.
Local Set Warnings "-register-all".

(** ** Strings *)

Fixpoint all_chars (f : ascii -> bool) (s : string) : bool :=
  match s with
  | EmptyString => true
  | String a s' => f a && all_chars f s'
  end.

(** ** pathlib *)

Module Pathlib.

(** [str.rfind]: index of the last occurrence, [None] for Python's [-1]. *)
Fixpoint rfind (c : ascii) (s : string) : option nat :=
  match s with
  | EmptyString => None
  | String a s' =>
      match rfind c s' with
      | Some i => Some (S i)
      | None => if Ascii.eqb a c then Some 0 else None
      end
  end.

(** [PurePath.stem] on the final component:
    [i = name.rfind('.')], [name[:i]] when [0 < i < len(name) - 1]. *)
Definition stem_of_name (name : string) : string :=
  match rfind "." name with
  | Some i =>
      if ((0 <? i) && (i <? String.length name - 1))%nat
      then String.substring 0 i name
      else name
  | None => name
  end.

(** [fnmatch] restricted to the wildcards [*] and [?]; on POSIX the match
    is case sensitive and anchored at both ends. *)
Fixpoint fnmatch (pat name : string) : bool :=
  match pat with
  | EmptyString =>
      match name with EmptyString => true | _ => false end
  | String "*" pat' =>
      (fix star (n : string) : bool :=
         fnmatch pat' n ||
         match n with
         | EmptyString => false
         | String _ n' => star n'
         end) name
  | String "?" pat' =>
      match name with
      | EmptyString => false
      | String _ name' => fnmatch pat' name'
      end
  | String c pat' =>
      match name with
      | EmptyString => false
      | String d name' => Ascii.eqb c d && fnmatch pat' name'
      end
  end.

(** Patterns that are plain text. *)
Definition wildcard_free (pat : string) : bool :=
  all_chars
    (fun a => negb (Ascii.eqb a "*") && negb (Ascii.eqb a "?")) pat.

(** A path is the list of its parts. *)
Definition Path : Type := list string.

Definition name (p : Path) : string := List.last p "".
Definition parent (p : Path) : Path := List.removelast p.
Definition stem (p : Path) : string := stem_of_name (name p).
Definition joinpath (p : Path) (child : string) : Path := p ++ [child].

(** Directory trees as [rglob] walks them. *)
Inductive entry : Type :=
| File (n : string)
| Dir (n : string) (children : list entry).

Definition entry_name (e : entry) : string :=
  match e with
  | File n => n
  | Dir n _ => n
  end.

(** [Path.rglob(pattern)] for a single-component pattern: the matching
    children of the directory itself, then those of every sub-directory,
    depth first.  Files and directories are both candidates. *)
Fixpoint rglob_in (pat : string) (dir : Path) (e : entry) : list Path :=
  match e with
  | File _ => []
  | Dir _ children =>
      List.filter (fun p => fnmatch pat (name p))
                  (List.map (fun c => joinpath dir (entry_name c)) children)
      ++ List.flat_map
           (fun c => rglob_in pat (joinpath dir (entry_name c)) c) children
  end.

Definition rglob (pat : string) (dir : Path) (contents : list entry) : list Path :=
  rglob_in pat dir (Dir (name dir) contents).

End Pathlib.

(** ** [GET /database/] *)

Module Listing.
Import Pathlib.

(** [get_database_list], with [db_dir = Path(backend_args.db_path)] and the
    directory's contents as found on disk. *)
Definition get_database_list (db_dir : Path) (contents : list entry) : list string :=
  let db_files := rglob "*.sqlite" db_dir contents in
  List.map stem
    (List.filter (fun db_file => String.eqb (stem db_file) (stem (parent db_file)))
                 db_files).

(** [p] is the path of an entry found at some depth below directory [dir]. *)
Inductive below : Path -> list entry -> Path -> Prop :=
| below_child dir contents e :
    In e contents -> below dir contents (joinpath dir (entry_name e))
| below_nested dir contents n sub p :
    In (Dir n sub) contents ->
    below (joinpath dir n) sub p ->
    below dir contents p.

(** No directory, the root included, has a name that [stem] would
    shorten: [Path.stem] and [Path.name] agree on every directory. *)
Fixpoint plain_entry (e : entry) : bool :=
  match e with
  | File _ => true
  | Dir n children => String.eqb (stem_of_name n) n && forallb plain_entry children
  end.

Definition plain_directories (db_dir : Path) (contents : list entry) : Prop :=
  plain_entry (Dir (name db_dir) contents) = true.

(** The storage layout [<root>/<db_id>/<db_id>.<ext>]. *)
Definition self_named_layout (contents : list entry) (db_id : string) : Prop :=
  exists sub ext,
    In (Dir db_id sub) contents /\ In (File (db_id +:+ "." +:+ ext)) sub.

End Listing.


(** ** Python values, exceptions and effects *)

(** What a handler can have in flight: the one sqlite3 class the handlers
    catch, any other exception class, and FastAPI's [HTTPException]. *)
Inductive exn : Type :=
| OperationalError (msg : string)
| PyError (cls msg : string)
| HTTPException (status_code : nat) (detail : string).

Inductive result (A : Type) : Type :=
| Return (a : A)
| Raise (e : exn).
Arguments Return {A} a.
Arguments Raise {A} e.

(** Code that mutates a state [S] and either returns or raises. *)
Definition M (S A : Type) : Type := S -> S * result A.

Definition ret {S A} (a : A) : M S A := fun s => (s, Return a).
Definition raise {S A} (e : exn) : M S A := fun s => (s, Raise e).
Definition bind {S A B} (m : M S A) (k : A -> M S B) : M S B :=
  fun s =>
    match m s with
    | (s', Return a) => k a s'
    | (s', Raise e) => (s', Raise e)
    end.

Declare Scope py_scope.
Delimit Scope py_scope with py.
Notation "x <- m ;; k" := (bind m (fun x => k))
  (at level 100, m at next level, right associativity) : py_scope.
Notation "m ;;; k" := (bind m (fun _ => k))
  (at level 100, right associativity) : py_scope.

(** [try: body  except OperationalError as e: handler(e.args[0])] *)
Definition try_except_OperationalError {S A}
    (body : M S A) (handler : string -> M S A) : M S A :=
  fun s =>
    match body s with
    | (s', Raise (OperationalError msg)) => handler msg s'
    | other => other
    end.

(** A list comprehension (or [for] loop) whose body may raise: elements are
    visited left to right and the first exception ends the iteration. *)
Fixpoint comprehension {S A B} (f : A -> M S B) (l : list A) : M S (list B) :=
  match l with
  | [] => ret []
  | a :: l' => (b <- f a ;; bs <- comprehension f l' ;; ret (b :: bs))%py
  end.

(** ** The sqlite3 module *)

Inductive value : Type :=
| Null
| Integer (z : Z)
| Text (s : string).

Definition row : Type := list value.

(** The part of sqlite3 the handlers use.  [Database] is what a database
    file holds; [sqlite_open] is [connect] on that content, [empty_database]
    the zero-byte file [connect] creates when the path is free, and
    [sqlite_close] what is left on disk once the connection is closed. *)
Class Sqlite3 : Type := {
  Database : Type;
  Connection : Type;
  empty_database : Database;
  sqlite_open : Database -> Connection;
  sqlite_execute : string -> Connection -> Connection * result (list row);
  sqlite_commit : Connection -> Connection;
  sqlite_close : Connection -> Database;
}.

(** ** Schemas and the serving configuration *)

(** The dictionary [get_schema] returns, as the handlers index it. *)
Record Schema : Type := {
  db_table_names : list string;
  db_column_names : list (Z * string);
  db_foreign_keys : list (nat * nat);
}.

Record output : Type := { generated_text : string }.

Record Text2SQLInput : Type := { utterance : string; db_id : string }.

Record QuestionWithSchemaInput : Type := { qs_utterance : string; qs_schema : string }.

(** Request body of [/ask-with-schema/]. *)
Record Query : Type := { question : string; db_schema : string }.

Record AskResponse : Type := { query : string; execution_results : list row }.

(** Token layout of one serialization style. *)
Record Style : Type := {
  db_id_token : string -> string;
  table_sep : string;
  table_columns_sep : string;
  column_sep : string;
  value_open : string;
  value_sep : string;
  value_close : string;
  foreign_key_token : string -> string -> string;
}.

(** Everything [main] binds before the handlers are defined, and the
    helpers imported from [seq2seq.utils]. *)
Class Backend `{Sqlite3} : Type := {
  db_path : string;
  num_return_sequences : nat;
  include_foreign_keys_in_schema : bool;
  (** [get_db_file_path(db_path, db_id)] *)
  get_db_file_path : string -> string -> string;
  (** structural introspection of a database file *)
  dump_db_json_schema : string -> Database -> Schema;
  (** serialization, generation and decoding inside the id-based pipeline *)
  generate : Schema -> string -> nat -> list output;
  (** [Text2SQLGenPipelineWithSchema.__call__] *)
  pipe_with_schema : QuestionWithSchemaInput -> nat -> result (list output);
  (** the named serialization styles *)
  style_named : string -> option Style;
  (** the bounded sample query behind content-aware serialization *)
  sample_values : Database -> string -> string -> list string;
  (** a permutation drawn from a request-scoped seed *)
  shuffle : forall A : Type, nat -> list A -> list A;
  (** [spider_get_input(question, serialized_schema, prefix)] *)
  spider_get_input : string -> string -> string -> string;
}.

(** ** The handlers *)

Section Server.
Context `{Backend}.

Local Open Scope py_scope.

(** Database files by path, the id-keyed schema cache of the pipeline, and
    every statement handed to the engine so far. *)
Record world : Type := {
  files : gmap string Database;
  schema_cache : gmap string Schema;
  sql_trace : list string;
}.

(** An open connection and the statements sent through it. *)
Record session : Type := {
  handle : Connection;
  sent : list string;
}.

Definition path_exists (path : string) (w : world) : bool :=
  bool_decide (is_Some (files w !! path)).

(** [sqlite3.connect(path)]: a free path gets a new, empty database file.
    Directories are not part of the world; the one that holds the file is
    taken to exist. *)
Definition connect (path : string) (w : world) : session :=
  {| handle := sqlite_open (default empty_database (files w !! path));
     sent := [] |}.

(** [conn.execute(query).fetchall()], also [cur.execute(query)]. *)
Definition execute (q : string) : M session (list row) :=
  fun s =>
    let '(c, r) := sqlite_execute q (handle s) in
    ({| handle := c; sent := sent s ++ [q] |}, r).

Definition commit : M session unit :=
  fun s => ({| handle := sqlite_commit (handle s); sent := sent s |}, Return tt).

Definition close (path : string) (s : session) (w : world) : world :=
  {| files := <[path := sqlite_close (handle s)]> (files w);
     schema_cache := schema_cache w;
     sql_trace := sql_trace w ++ sent s |}.

(** [con = connect(path)], a body, and [finally: con.close()]. *)
Definition with_connection {A} (path : string) (body : M session A) : M world A :=
  fun w =>
    let '(s, r) := body (connect path w) in
    (close path s w, r).

(** A call that leaves the world alone. *)
Definition pure_call {A} (r : result A) : M world A := fun w => (w, r).

Definition dquote : string := String "034"%char EmptyString.

(** The detail of the 500 raised by [response]. *)
Definition execution_error_detail (q msg : string) : string :=
  "while executing " +:+ dquote +:+ q +:+ dquote
  +:+ ", the following error occurred: " +:+ msg.

(** [response(query, conn)] *)
Definition response (q : string) : M session AskResponse :=
  try_except_OperationalError
    (rows <- execute q ;;
     ret {| query := q; execution_results := rows |})
    (fun msg => raise (HTTPException 500 (execution_error_detail q msg))).

(** Modelled from the spec: [get_schema] of [seq2seq/utils/pipeline.py] is
    not part of the served file.  Resolution fails when no database file
    exists for the id and otherwise introspects the file. *)
Definition get_schema (root id : string) : M world Schema :=
  fun w =>
    match files w !! get_db_file_path root id with
    | Some db => (w, Return (dump_db_json_schema id db))
    | None => (w, Raise (OperationalError "unable to open database file"))
    end.

(** Modelled from the spec: [get_schema_from_cache] of the pipeline classes
    is not part of the served file.  At most one schema is cached per id; it
    is built on first access and served from the cache afterwards. *)
Definition get_schema_from_cache (id : string) : M world Schema :=
  fun w =>
    match schema_cache w !! id with
    | Some schema => (w, Return schema)
    | None =>
        match get_schema db_path id w with
        | (w', Return schema) =>
            ({| files := files w';
                schema_cache := <[id := schema]> (schema_cache w');
                sql_trace := sql_trace w' |}, Return schema)
        | other => other
        end
    end.

(** Modelled from the spec: [Text2SQLGenerationPipeline.__call__] is not
    part of the served file.  It resolves the schema, then serializes,
    generates and decodes. *)
Definition pipe (inputs : Text2SQLInput) (n : nat) : M world (list output) :=
  schema <- get_schema_from_cache (db_id inputs) ;;
  ret (generate schema (utterance inputs) n).

(** [GET /ask/] *)
Definition ask (id q : string) : M world (list AskResponse) :=
  outputs <- try_except_OperationalError
               (pipe {| utterance := q; db_id := id |} num_return_sequences)
               (fun msg => raise (HTTPException 404 msg)) ;;
  with_connection (db_path +:+ "/" +:+ id +:+ "/" +:+ id +:+ ".sqlite")
    (comprehension (fun o => response (generated_text o)) outputs).

(** A database is known when its schema is cached or its file exists. *)
Definition resolves (id : string) (w : world) : Prop :=
  is_Some (schema_cache w !! id) \/ is_Some (files w !! get_db_file_path db_path id).

(** [POST /ask-with-schema/] *)
Definition ask_with_schema (body : Query) : M world (list string) :=
  outputs <- try_except_OperationalError
               (pure_call
                  (pipe_with_schema
                     {| qs_utterance := question body; qs_schema := db_schema body |}
                     num_return_sequences))
               (fun msg => raise (HTTPException 404 msg)) ;;
  ret (List.map generated_text outputs).

(** The body shared by [create_schema] and [update_schema]:
    [for query in queries: cur.execute(query)], [con.commit()], and the
    [except OperationalError] clause. *)
Definition run_queries (queries : list string) : M session unit :=
  try_except_OperationalError
    (comprehension execute queries ;;; commit)
    (fun msg => raise (HTTPException 400 msg)).

(** [POST /schema/{db_id}].  Directories are not part of the world, so
    [db_file_path.parent.mkdir(parents=True, exist_ok=True)] leaves no mark
    on it. *)
Definition create_schema (id : string) (queries : list string) : M world Schema :=
  fun w =>
    let db_file_path := get_db_file_path db_path id in
    if path_exists db_file_path w
    then raise (HTTPException 409 "database already exists") w
    else (with_connection db_file_path (run_queries queries) ;;;
          get_schema db_path id) w.

(** [PATCH /schema/{db_id}] *)
Definition update_schema (id : string) (queries : list string) : M world Schema :=
  fun w =>
    let db_file_path := get_db_file_path db_path id in
    if negb (path_exists db_file_path w)
    then raise (HTTPException 404 "database not found") w
    else (with_connection db_file_path (run_queries queries) ;;;
          get_schema db_path id) w.

(** *** Serialization *)

Definition columns_of (table_id : nat) (columns : list (Z * string)) : list string :=
  List.map snd (List.filter (fun c => Z.eqb (fst c) (Z.of_nat table_id)) columns).

(** [table.column] for the column at position [i] of the column list. *)
Definition canonical_column (tables : list string) (columns : list (Z * string))
    (i : nat) : string :=
  match columns !! i with
  | Some (t, c) => default "" (tables !! Z.to_nat t) +:+ "." +:+ c
  | None => ""
  end.

Definition column_token (style : Style) (content : option Database)
    (table column : string) : string :=
  match content with
  | Some db =>
      column +:+ value_open style
      +:+ String.concat (value_sep style) (sample_values db table column)
      +:+ value_close style
  | None => column
  end.

Definition table_token (style : Style) (content : option Database)
    (reorder : list string -> list string)
    (columns : list (Z * string)) (t : nat * string) : string :=
  snd t +:+ table_columns_sep style
  +:+ String.concat (column_sep style)
        (List.map (column_token style content (snd t))
                  (reorder (columns_of (fst t) columns))).

(** Modelled from the spec: [serialize_schema] of [seq2seq/utils/dataset.py]
    is not part of the served file.  Each table is rendered with its columns
    as one group and the groups are joined by the style's separator; the
    database id is prefixed, sample values are appended to the columns and
    foreign keys are rendered as relations between canonical column names,
    each on request; an unrecognized style is a [ConfigError]; with
    [randomized] the tables, and the columns of each table, are presented in
    an order drawn from the seed. *)
Definition serialize_schema (seed : nat) (q root id : string)
    (columns : list (Z * string)) (tables : list string)
    (schema_serialization_type : string)
    (schema_serialization_randomized schema_serialization_with_db_id
     schema_serialization_with_db_content include_foreign_keys : bool)
    (foreign_keys : list (nat * nat)) : M world string :=
  fun w =>
    match style_named schema_serialization_type with
    | None => (w, Raise (PyError "ConfigError" schema_serialization_type))
    | Some style =>
        let content :=
          if schema_serialization_with_db_content
          then files w !! get_db_file_path root id
          else None in
        if schema_serialization_with_db_content && negb (path_exists (get_db_file_path root id) w)
        then (w, Raise (OperationalError "unable to open database file"))
        else
          let reorder (A : Type) (l : list A) : list A :=
            if schema_serialization_randomized then shuffle A seed l else l in
          let groups :=
            List.map (table_token style content (reorder string) columns)
                     (reorder (nat * string)%type (imap (fun i t => (i, t)) tables)) in
          let relations :=
            if include_foreign_keys
            then List.map
                   (fun fk => foreign_key_token style
                                (canonical_column tables columns (fst fk))
                                (canonical_column tables columns (snd fk)))
                   foreign_keys
            else [] in
          (w, Return ((if schema_serialization_with_db_id
                       then db_id_token style id else "")
                      +:+ String.concat (table_sep style) (groups ++ relations)))
    end.

(** [GET /serialized-schema/{db_id}/]; [seed] stands for the state of the
    random number generator when the request arrives. *)
Definition get_serialized_schema (seed : nat) (id : string)
    (schema_serialization_type : string)
    (schema_serialization_randomized schema_serialization_with_db_id
     schema_serialization_with_db_content : bool) : M world string :=
  schema <- get_schema_from_cache id ;;
  serialized_schema <-
    serialize_schema seed "question" db_path id
      (db_column_names schema) (db_table_names schema)
      schema_serialization_type schema_serialization_randomized
      schema_serialization_with_db_id schema_serialization_with_db_content
      include_foreign_keys_in_schema (db_foreign_keys schema) ;;
  ret (spider_get_input "question" serialized_schema "").

End Server.

(** ** An instance: sqlite3 under legacy transaction control

    [connect(path)] leaves [isolation_level] at its default, so the module
    opens a transaction on its own only in front of INSERT, UPDATE, DELETE
    and REPLACE; any other statement met outside a transaction runs in
    SQLite's autocommit mode and is on disk as soon as it succeeds.  [commit]
    ends the open transaction, [close] discards it.  The SQL understood is a
    fragment: four statement forms over single-column tables. *)

Module LegacySqlite3.

Inductive statement : Type :=
| CreateTable (t : string)
| DropTable (t : string)
| InsertDefault (t : string)
| SelectAll (t : string).

Fixpoint strip_prefix (p s : string) : option string :=
  match p with
  | EmptyString => Some s
  | String a p' =>
      match s with
      | EmptyString => None
      | String b s' => if Ascii.eqb a b then strip_prefix p' s' else None
      end
  end.

Definition strip_suffix (p s : string) : option string :=
  let n := String.length s in
  let k := String.length p in
  if (k <=? n)%nat && String.eqb (String.substring (n - k) k s) p
  then Some (String.substring 0 (n - k) s)
  else None.

Definition is_identifier_char (a : ascii) : bool :=
  let n := nat_of_ascii a in
  ((48 <=? n) && (n <=? 57) || (65 <=? n) && (n <=? 90)
   || (97 <=? n) && (n <=? 122) || (n =? 95))%nat.

Definition identifier (s : string) : option string :=
  if negb (String.eqb s "") && all_chars is_identifier_char s then Some s else None.

Definition parse (q : string) : option statement :=
  match strip_prefix "CREATE TABLE " q with
  | Some rest => CreateTable <$> (strip_suffix " (x)" rest ≫= identifier)
  | None =>
  match strip_prefix "DROP TABLE " q with
  | Some rest => DropTable <$> identifier rest
  | None =>
  match strip_prefix "INSERT INTO " q with
  | Some rest => InsertDefault <$> (strip_suffix " DEFAULT VALUES" rest ≫= identifier)
  | None =>
  match strip_prefix "SELECT * FROM " q with
  | Some rest => SelectAll <$> identifier rest
  | None => None
  end end end end.

(** Tables in creation order, each with its rows. *)
Definition database : Type := list (string * list row).

Definition lookup_table (t : string) (db : database) : option (list row) :=
  snd <$> List.find (fun e => String.eqb (fst e) t) db.

Definition drop_table (t : string) (db : database) : database :=
  List.filter (fun e => negb (String.eqb (fst e) t)) db.

Definition insert_row (t : string) (r : row) (db : database) : database :=
  List.map (fun e => if String.eqb (fst e) t then (fst e, snd e ++ [r]) else e) db.

(** One statement on the working copy: the engine's message, or the new
    copy and the rows fetched. *)
Definition run (st : statement) (db : database) : string + database * list row :=
  match st with
  | CreateTable t =>
      match lookup_table t db with
      | Some _ => inl ("table " +:+ t +:+ " already exists")
      | None => inr (db ++ [(t, [])], [])
      end
  | DropTable t =>
      match lookup_table t db with
      | Some _ => inr (drop_table t db, [])
      | None => inl ("no such table: " +:+ t)
      end
  | InsertDefault t =>
      match lookup_table t db with
      | Some _ => inr (insert_row t [Null] db, [])
      | None => inl ("no such table: " +:+ t)
      end
  | SelectAll t =>
      match lookup_table t db with
      | Some rows => inr (db, rows)
      | None => inl ("no such table: " +:+ t)
      end
  end.

Definition is_dml (st : statement) : bool :=
  match st with
  | InsertDefault _ => true
  | _ => false
  end.

Record connection : Type := {
  on_disk : database;
  working : database;
  in_transaction : bool;
}.

Definition open (db : database) : connection :=
  {| on_disk := db; working := db; in_transaction := false |}.

Definition exec (q : string) (c : connection) : connection * result (list row) :=
  match parse q with
  | None => (c, Raise (OperationalError "syntax error"))
  | Some st =>
      match run st (working c) with
      | inl msg => (c, Raise (OperationalError msg))
      | inr (db, rows) =>
          let tx := in_transaction c || is_dml st in
          ({| on_disk := if tx then on_disk c else db;
              working := db;
              in_transaction := tx |}, Return rows)
      end
  end.

Definition commit (c : connection) : connection :=
  {| on_disk := working c; working := working c; in_transaction := false |}.

Definition close (c : connection) : database := on_disk c.

Definition engine : Sqlite3 :=
  {| Database := database;
     Connection := connection;
     empty_database := [];
     sqlite_open := open;
     sqlite_execute := exec;
     sqlite_commit := commit;
     sqlite_close := close |}.

End LegacySqlite3.

(** ** An instance: a backend with a canned generator

    The generator returns the first [n] of a fixed list of candidates,
    whatever the question. *)

Module Canned.

Definition peteshaw : Style :=
  {| db_id_token := fun id => " | " +:+ id +:+ " | ";
     table_sep := " | ";
     table_columns_sep := " : ";
     column_sep := " , ";
     value_open := " ( ";
     value_sep := " , ";
     value_close := " )";
     foreign_key_token := fun a b => a +:+ " = " +:+ b |}.

Definition introspect (id : string) (db : @Database LegacySqlite3.engine) : Schema :=
  {| db_table_names := List.map fst db;
     db_column_names := imap (fun i _ => (Z.of_nat i, "x")) db;
     db_foreign_keys := [] |}.

Definition backend (candidates : list string) : @Backend LegacySqlite3.engine :=
  {| db_path := "database";
     num_return_sequences := 2;
     include_foreign_keys_in_schema := false;
     get_db_file_path := fun root id => root +:+ "/" +:+ id +:+ "/" +:+ id +:+ ".sqlite";
     dump_db_json_schema := introspect;
     generate := fun _ _ n => List.map Build_output (take n candidates);
     pipe_with_schema := fun _ n => Return (List.map Build_output (take n candidates));
     style_named := fun s => if String.eqb s "peteshaw" then Some peteshaw else None;
     sample_values := fun _ _ _ => [];
     shuffle := fun A seed l => if Nat.even seed then l else List.rev l;
     spider_get_input := fun q s prefix => prefix +:+ q +:+ " " +:+ s |}.

Definition empty_world : @world LegacySqlite3.engine :=
  {| files := ∅; schema_cache := ∅; sql_trace := [] |}.

Definition shop_file : string := "database/shop/shop.sqlite".

(** A world holding one database, [shop], with one empty table [t]. *)
Definition shop_world : @world LegacySqlite3.engine :=
  {| files := {[ shop_file := [("t", [])] ]};
     schema_cache := ∅;
     sql_trace := [] |}.

End Canned.


(** ** Entries seen as directories *)

Module ListingShapes.
Import Pathlib.

(** The same tree with every file replaced by an empty directory of the
    same name. *)
Fixpoint as_directory (e : entry) : entry :=
  match e with
  | File n => Dir n []
  | Dir n children => Dir n (List.map as_directory children)
  end.

End ListingShapes.

(** ** An instance: one table with a UNIQUE column

    The database is the table [t(k UNIQUE)], held as the list of its keys.
    The only statement understood inserts one key; the module opens a
    transaction in front of it, so the file changes at [commit] only.  A key
    that is already there violates the constraint, which sqlite3 reports as
    [IntegrityError], not as [OperationalError]. *)

Module UniqueColumn.

Definition parse (q : string) : option string :=
  LegacySqlite3.strip_prefix "INSERT INTO t VALUES (" q
    ≫= LegacySqlite3.strip_suffix ")".

Record connection : Type := {
  on_disk : list string;
  working : list string;
}.

Definition open (db : list string) : connection :=
  {| on_disk := db; working := db |}.

Definition exec (q : string) (c : connection) : connection * result (list row) :=
  match parse q with
  | None => (c, Raise (OperationalError "syntax error"))
  | Some k =>
      if existsb (String.eqb k) (working c)
      then (c, Raise (PyError "IntegrityError" "UNIQUE constraint failed: t.k"))
      else ({| on_disk := on_disk c; working := working c ++ [k] |}, Return [])
  end.

Definition commit (c : connection) : connection :=
  {| on_disk := working c; working := working c |}.

Definition close (c : connection) : list string := on_disk c.

Definition engine : Sqlite3 :=
  {| Database := list string;
     Connection := connection;
     empty_database := [];
     sqlite_open := open;
     sqlite_execute := exec;
     sqlite_commit := commit;
     sqlite_close := close |}.

Definition introspect (id : string) (db : @Database engine) : Schema :=
  {| db_table_names := ["t"];
     db_column_names := [(0%Z, "k")];
     db_foreign_keys := [] |}.

Definition backend (candidates : list string) : @Backend engine :=
  {| db_path := "database";
     num_return_sequences := 2;
     include_foreign_keys_in_schema := false;
     get_db_file_path := fun root id => root +:+ "/" +:+ id +:+ "/" +:+ id +:+ ".sqlite";
     dump_db_json_schema := introspect;
     generate := fun _ _ n => List.map Build_output (take n candidates);
     pipe_with_schema := fun _ n => Return (List.map Build_output (take n candidates));
     style_named := fun _ => None;
     sample_values := fun _ _ _ => [];
     shuffle := fun A _ l => l;
     spider_get_input := fun q s prefix => prefix +:+ q +:+ " " +:+ s |}.

(** A world holding one database, [keys], whose table holds the key [1]. *)
Definition keys_world : @world engine :=
  {| files := {[ "database/keys/keys.sqlite" := ["1"] ]};
     schema_cache := ∅;
     sql_trace := [] |}.

End UniqueColumn.

(** * Properties *)

(** ** pathlib *)

Module PathlibFacts.
Import Pathlib.

Lemma name_joinpath (dir : Path) (n : string) : name (joinpath dir n) = n.
Proof. unfold name, joinpath. apply last_last. Qed.

Lemma parent_joinpath (dir : Path) (n : string) : parent (joinpath dir n) = dir.
Proof. unfold parent, joinpath. apply removelast_last. Qed.

(** Induction over directory trees, with the hypothesis available for every
    child of a directory. *)
Lemma entry_tree_ind (P : entry -> Prop) :
  (forall n, P (File n)) ->
  (forall n children, Forall P children -> P (Dir n children)) ->
  forall e, P e.
Proof.
  intros HF HD.
  refine (fix go (e : entry) : P e :=
            match e with
            | File n => HF n
            | Dir n children =>
                HD n children
                   ((fix all (l : list entry) : Forall P l :=
                       match l with
                       | [] => @List.Forall_nil _ P
                       | c :: l' => @List.Forall_cons _ P c l' (go c) (all l')
                       end) children)
            end).
Qed.

Lemma fnmatch_literal (pat n : string) :
  wildcard_free pat = true -> fnmatch pat n = String.eqb pat n.
Proof.
  revert n. induction pat as [|c pat IH]; intros n Hw.
  - destruct n; reflexivity.
  - unfold wildcard_free in Hw. simpl in Hw.
    apply andb_true_iff in Hw as [Hc Hw]. specialize (IH).
    assert (Hstep : fnmatch (String c pat) n =
                    match n with
                    | EmptyString => false
                    | String d n' => Ascii.eqb c d && fnmatch pat n'
                    end).
    { destruct c as [[] [] [] [] [] [] [] []]; try discriminate Hc; reflexivity. }
    rewrite Hstep. destruct n as [|d n]; [reflexivity|].
    simpl. rewrite (IH n Hw). destruct (Ascii.eqb c d); reflexivity.
Qed.

Lemma fnmatch_star_step (pat : string) (a : ascii) (n : string) :
  fnmatch (String "*" pat) (String a n) =
  fnmatch pat (String a n) || fnmatch (String "*" pat) n.
Proof. reflexivity. Qed.

(** [*] followed by a literal matches exactly the names that end with the
    literal. *)
Lemma fnmatch_star_literal (lit n : string) :
  wildcard_free lit = true ->
  fnmatch (String "*" lit) n = true <-> exists pre, n = pre +:+ lit.
Proof.
  intros Hw. induction n as [|a n IH].
  - change (fnmatch (String "*" lit) "") with (fnmatch lit "" || false).
    rewrite orb_false_r, (fnmatch_literal _ _ Hw), String.eqb_eq. split.
    + intros ->. exists "". reflexivity.
    + intros [pre Hpre]. destruct pre; [exact (eq_sym Hpre) | discriminate].
  - rewrite fnmatch_star_step, orb_true_iff, (fnmatch_literal _ _ Hw), String.eqb_eq, IH.
    split.
    + intros [-> | [pre ->]]; [exists "" | exists (String a pre)]; reflexivity.
    + intros [[|b pre] Hpre]; simpl in Hpre.
      * left. exact (eq_sym Hpre).
      * right. injection Hpre as _ ->. exists pre. reflexivity.
Qed.

Lemma fnmatch_sqlite (n : string) :
  fnmatch "*.sqlite" n = true <-> exists pre, n = pre +:+ ".sqlite".
Proof. apply fnmatch_star_literal. reflexivity. Qed.

Lemma append_nil_l (b : string) : "" +:+ b = b.
Proof. reflexivity. Qed.

Lemma append_cons (x : ascii) (a b : string) :
  String x a +:+ b = String x (a +:+ b).
Proof. reflexivity. Qed.

Lemma rfind_append (c : ascii) (a b : string) :
  rfind c (a +:+ b) =
  match rfind c b with
  | Some i => Some (String.length a + i)
  | None => rfind c a
  end.
Proof.
  induction a as [|x a IH].
  - rewrite append_nil_l. destruct (rfind c b); reflexivity.
  - rewrite append_cons. simpl. rewrite IH. destruct (rfind c b); reflexivity.
Qed.

Lemma substring_prefix (a b : string) :
  String.substring 0 (String.length a) (a +:+ b) = a.
Proof.
  induction a as [|x a IH].
  - rewrite append_nil_l. destruct b; reflexivity.
  - rewrite append_cons. simpl. rewrite IH. reflexivity.
Qed.

Lemma length_append (a b : string) :
  String.length (a +:+ b) = String.length a + String.length b.
Proof.
  induction a as [|x a IH]; [reflexivity|].
  rewrite append_cons. simpl. rewrite IH. reflexivity.
Qed.

(** The stem of [<id>.sqlite] is [<id>], for a non-empty [<id>]. *)
Lemma stem_of_sqlite_name (id : string) :
  id <> "" -> stem_of_name (id +:+ ".sqlite") = id.
Proof.
  intros Hid. unfold stem_of_name. rewrite rfind_append. simpl.
  rewrite length_append, Nat.add_0_r. simpl.
  destruct id as [|x id]; [congruence|].
  replace (0 <? String.length (String x id))%nat with true by reflexivity.
  replace (String.length (String x id) <? String.length (String x id) + 7 - 1)%nat
    with true by (symmetry; apply Nat.ltb_lt; lia).
  simpl andb. cbv iota. apply substring_prefix.
Qed.

End PathlibFacts.

(** ** [GET /database/] *)

Module ListingFacts.
Import Pathlib Listing PathlibFacts.

(** [rglob] finds exactly the entries below the directory, at any depth,
    whose name matches the pattern. *)
Lemma rglob_in_below (pat : string) (e : entry) :
  forall dir p,
    In p (rglob_in pat dir e) <->
    match e with
    | File _ => False
    | Dir _ children => below dir children p /\ fnmatch pat (name p) = true
    end.
Proof.
  induction e as [n | n children IH] using entry_tree_ind; intros dir p.
  - reflexivity.
  - rewrite List.Forall_forall in IH. simpl.
    rewrite in_app_iff, filter_In, in_map_iff, in_flat_map. split.
    + intros [[[c [<- Hc]] Hm] | [c [Hc Hp]]].
      * split; [apply below_child; exact Hc | exact Hm].
      * apply (IH c Hc) in Hp. destruct c as [m | m sub]; [contradiction|].
        destruct Hp as [Hb Hm]. split; [| exact Hm].
        eapply below_nested; eauto.
    + intros [Hb Hm]. inversion Hb as [d cs c Hc | d cs m sub q Hc Hq]; subst.
      * left. split; [| exact Hm]. exists c. split; [reflexivity | exact Hc].
      * right. exists (Dir m sub). split; [exact Hc|].
        apply (IH (Dir m sub) Hc). split; assumption.
Qed.

Lemma rglob_below (pat : string) (dir : Path) (contents : list entry) (p : Path) :
  In p (rglob pat dir contents) <->
  below dir contents p /\ fnmatch pat (name p) = true.
Proof. unfold rglob. apply (rglob_in_below pat (Dir (name dir) contents)). Qed.

(** What the handler lists, for any tree: the stems of the entries named
    [*.sqlite], at any depth, whose stem is the stem of their directory. *)
Lemma get_database_list_iff (db_dir : Path) (contents : list entry) (id : string) :
  In id (get_database_list db_dir contents) <->
  exists p,
    below db_dir contents p /\
    (exists pre, name p = pre +:+ ".sqlite") /\
    stem p = stem (parent p) /\
    stem p = id.
Proof.
  unfold get_database_list. rewrite in_map_iff. split.
  - intros [p [Hid Hp]]. apply filter_In in Hp as [Hp Heq].
    apply rglob_below in Hp as [Hb Hm].
    exists p. repeat split; try assumption.
    + apply fnmatch_sqlite. exact Hm.
    + apply String.eqb_eq. exact Heq.
  - intros [p [Hb [Hm [Heq Hid]]]]. exists p. split; [exact Hid|].
    apply filter_In. split.
    + apply rglob_below. split; [exact Hb | apply fnmatch_sqlite; exact Hm].
    + apply String.eqb_eq. exact Heq.
Qed.

Lemma plain_below (dir : Path) (contents : list entry) (p : Path) :
  below dir contents p ->
  stem_of_name (name dir) = name dir ->
  forallb plain_entry contents = true ->
  stem (parent p) = name (parent p).
Proof.
  induction 1 as [dir contents e He | dir contents n sub p Hn Hb IH];
    intros Hdir Hall.
  - rewrite parent_joinpath. exact Hdir.
  - rewrite forallb_forall in Hall. specialize (Hall _ Hn). simpl in Hall.
    apply andb_true_iff in Hall as [Hname Hsub].
    apply IH; [| exact Hsub].
    rewrite name_joinpath. apply String.eqb_eq. exact Hname.
Qed.

(** The listing example of the layout, with the extension the handler
    globs for. *)
Example get_database_list_x_y :
  get_database_list ["root"] [Dir "x" [File "x.sqlite"]; Dir "y" [File "z.sqlite"]]
  = ["x"].
Proof. reflexivity. Qed.

(** C3, as amended: where no directory name carries a dot suffix, an id is
    listed if and only if some entry named [*.sqlite], at any depth below
    the root, has that id as its stem and sits in a directory of that
    name. *)
Theorem get_database_list_self_named
    (db_dir : Path) (contents : list entry) (id : string) :
  plain_directories db_dir contents ->
  In id (get_database_list db_dir contents) <->
  exists p,
    below db_dir contents p /\
    (exists pre, name p = pre +:+ ".sqlite") /\
    stem p = id /\
    name (parent p) = id.
Proof.
  intros Hplain. unfold plain_directories in Hplain. simpl in Hplain.
  apply andb_true_iff in Hplain as [Hroot Hall]. apply String.eqb_eq in Hroot.
  rewrite get_database_list_iff. split.
  - intros [p [Hb [Hm [Heq Hid]]]]. exists p. repeat split; try assumption.
    rewrite <- (plain_below _ _ _ Hb Hroot Hall), <- Heq. exact Hid.
  - intros [p [Hb [Hm [Hid Hdir]]]]. exists p. repeat split; try assumption.
    rewrite (plain_below _ _ _ Hb Hroot Hall), Hdir. exact Hid.
Qed.

Lemma get_database_list_self_named_witness :
  plain_directories ["root"] [Dir "x" [File "x.sqlite"]; Dir "y" [File "z.sqlite"]] /\
  In "x" (get_database_list ["root"]
            [Dir "x" [File "x.sqlite"]; Dir "y" [File "z.sqlite"]]).
Proof.
  split; [reflexivity|].
  apply (get_database_list_self_named
           ["root"] [Dir "x" [File "x.sqlite"]; Dir "y" [File "z.sqlite"]] "x");
    [reflexivity|].
  exists ["root"; "x"; "x.sqlite"]. repeat split.
  - apply (below_nested ["root"] _ "x" [File "x.sqlite"]); [left; reflexivity|].
    apply (below_child ["root"; "x"] [File "x.sqlite"] (File "x.sqlite")).
    left. reflexivity.
  - exists "x". reflexivity.
Defined.

(** C3 fails as stated, in both directions: [x/x.db] has the layout and is
    not listed; [a/x/x.sqlite] is listed and [x] is not a directory of the
    root. *)
Lemma get_database_list_layout_counterexample :
  (self_named_layout [Dir "x" [File "x.db"]; Dir "y" [File "z.db"]] "x" /\
   ~ In "x" (get_database_list ["root"] [Dir "x" [File "x.db"]; Dir "y" [File "z.db"]]))
  /\
  (In "x" (get_database_list ["root"] [Dir "a" [Dir "x" [File "x.sqlite"]]]) /\
   ~ self_named_layout [Dir "a" [Dir "x" [File "x.sqlite"]]] "x").
Proof.
  repeat split.
  - exists [File "x.db"], "db". split; left; reflexivity.
  - intros [].
  - left. reflexivity.
  - intros [sub [ext [[Hd | []] _]]]. discriminate Hd.
Qed.

(** The search is recursive: a file [<id>.sqlite] in a directory named
    [<id>] is listed wherever that directory lies below the root, for a
    non-empty [<id>] without a dot suffix. *)
Lemma get_database_list_any_depth
    (db_dir : Path) (contents : list entry) (p : Path) (id : string) :
  below db_dir contents p ->
  name p = id +:+ ".sqlite" ->
  name (parent p) = id ->
  id <> "" ->
  stem_of_name id = id ->
  In id (get_database_list db_dir contents).
Proof.
  intros Hb Hname Hdir Hne Hplain. apply get_database_list_iff.
  assert (Hstem : stem p = id).
  { unfold stem. rewrite Hname. apply stem_of_sqlite_name. exact Hne. }
  exists p. repeat split; try assumption.
  - exists id. exact Hname.
  - rewrite Hstem. unfold stem. rewrite Hdir. symmetry. exact Hplain.
Qed.

Example get_database_list_nested :
  get_database_list ["root"] [Dir "a" [Dir "x" [File "x.sqlite"]]] = ["x"].
Proof. reflexivity. Qed.

(** C10, at the input where the handler departs from it: the file
    [a.b.sqlite] lies in the directory [a.b], its stem is that directory's
    name, and the handler lists nothing, because it compares the stem with
    the stem of the directory's name. *)
Theorem get_database_list_dotted_directory :
  stem ["root"; "a.b"; "a.b.sqlite"] = name (parent ["root"; "a.b"; "a.b.sqlite"]) /\
  stem (parent ["root"; "a.b"; "a.b.sqlite"]) = "a" /\
  get_database_list ["root"] [Dir "a.b" [File "a.b.sqlite"]] = [].
Proof. repeat split. Qed.

End ListingFacts.

(** ** The handlers over any engine and backend *)

Section ServerFacts.
Context `{Backend}.

Lemma pair_eta_snd {A B} (x : A * B) (b : B) : snd x = b -> x = (fst x, b).
Proof. intros <-. destruct x; reflexivity. Qed.

Lemma bind_return {S A B} (m : M S A) (k : A -> M S B) (s s' : S) (a : A) :
  m s = (s', Return a) -> bind m k s = k a s'.
Proof. intros Hm. unfold bind. rewrite Hm. reflexivity. Qed.

Lemma bind_raise {S A B} (m : M S A) (k : A -> M S B) (s s' : S) (e : exn) :
  m s = (s', Raise e) -> bind m k s = (s', Raise e).
Proof. intros Hm. unfold bind. rewrite Hm. reflexivity. Qed.

Lemma try_except_return {S A} (m : M S A) (h : string -> M S A) (s s' : S) (a : A) :
  m s = (s', Return a) -> try_except_OperationalError m h s = (s', Return a).
Proof. intros Hm. unfold try_except_OperationalError. rewrite Hm. reflexivity. Qed.

Lemma try_except_caught {S A} (m : M S A) (h : string -> M S A) (s s' : S) (msg : string) :
  m s = (s', Raise (OperationalError msg)) ->
  try_except_OperationalError m h s = h msg s'.
Proof. intros Hm. unfold try_except_OperationalError. rewrite Hm. reflexivity. Qed.

Lemma comprehension_map {S A B C} (g : A -> B) (f : B -> M S C) (l : list A) (s : S) :
  comprehension (fun a => f (g a)) l s = comprehension f (List.map g l) s.
Proof.
  revert s. induction l as [|a l IH]; intros s; [reflexivity|].
  simpl. unfold bind. destruct (f (g a) s) as [s1 [b | e]]; [| reflexivity].
  rewrite IH. reflexivity.
Qed.

Lemma comprehension_cons_return {S A B} (f : A -> M S B) (a : A) (l : list A)
    (s s1 s2 : S) (b : B) (bs : list B) :
  f a s = (s1, Return b) ->
  comprehension f l s1 = (s2, Return bs) ->
  comprehension f (a :: l) s = (s2, Return (b :: bs)).
Proof. intros Ha Hl. simpl. unfold bind. rewrite Ha, Hl. reflexivity. Qed.

(** A comprehension that returns has visited every element. *)
Lemma comprehension_return_inv {S A B} (f : A -> M S B) (a : A) (l : list A)
    (s s2 : S) (out : list B) :
  comprehension f (a :: l) s = (s2, Return out) ->
  exists s1 b bs,
    f a s = (s1, Return b) /\ comprehension f l s1 = (s2, Return bs) /\ out = b :: bs.
Proof.
  simpl. unfold bind.
  destruct (f a s) as [s1 [b | e]] eqn:Ha; [| discriminate].
  destruct (comprehension f l s1) as [s2' [bs | e]] eqn:Hl; [| discriminate].
  intros Heq. injection Heq as <- <-. exists s1, b, bs. repeat split. exact Hl.
Qed.

Lemma comprehension_length {S A B} (f : A -> M S B) (l : list A) (s s' : S) (out : list B) :
  comprehension f l s = (s', Return out) -> length out = length l.
Proof.
  revert s out. induction l as [|a l IH]; intros s out Hc.
  - injection Hc as _ <-. reflexivity.
  - apply comprehension_return_inv in Hc as (s1 & b & bs & _ & Hl & ->).
    simpl. f_equal. eapply IH. exact Hl.
Qed.

(** The first exception ends the iteration: nothing after the raising
    element is visited. *)
Lemma comprehension_raise {S A B} (f : A -> M S B) (pre : list A) (a : A)
    (post : list A) (s s1 s2 : S) (bs : list B) (e : exn) :
  comprehension f pre s = (s1, Return bs) ->
  f a s1 = (s2, Raise e) ->
  comprehension f (pre ++ a :: post) s = (s2, Raise e).
Proof.
  revert s bs. induction pre as [|x pre IH]; intros s bs Hpre Ha.
  - injection Hpre as -> _. simpl. unfold bind. rewrite Ha. reflexivity.
  - apply comprehension_return_inv in Hpre as (s0 & b & bs' & Hx & Hpre & ->).
    simpl. unfold bind. rewrite Hx.
    rewrite (IH s0 bs' Hpre Ha). reflexivity.
Qed.

Lemma execute_sent (q : string) (s s' : session) (r : result (list row)) :
  execute q s = (s', r) -> sent s' = sent s ++ [q].
Proof.
  unfold execute. destruct (sqlite_execute q (handle s)) as [c r'].
  intros Heq. injection Heq as <- _. reflexivity.
Qed.

Lemma comprehension_execute_sent (qs : list string) (s s' : session)
    (rows : list (list row)) :
  comprehension execute qs s = (s', Return rows) -> sent s' = sent s ++ qs.
Proof.
  revert s rows. induction qs as [|q qs IH]; intros s rows Hc.
  - injection Hc as <- _. rewrite app_nil_r. reflexivity.
  - apply comprehension_return_inv in Hc as (s1 & b & bs & Hq & Hqs & _).
    rewrite (IH _ _ Hqs), (execute_sent _ _ _ _ Hq), <- app_assoc. reflexivity.
Qed.

Lemma response_rows (q : string) (s s' : session) (rows : list row) :
  execute q s = (s', Return rows) ->
  response q s = (s', Return {| query := q; execution_results := rows |}).
Proof.
  intros He. unfold response.
  apply try_except_return. rewrite (bind_return _ _ _ _ _ He). reflexivity.
Qed.

Lemma response_operational_error (q : string) (s s' : session) (msg : string) :
  execute q s = (s', Raise (OperationalError msg)) ->
  response q s = (s', Raise (HTTPException 500 (execution_error_detail q msg))).
Proof.
  intros He. unfold response.
  erewrite try_except_caught; [reflexivity|].
  apply bind_raise. exact He.
Qed.

Lemma comprehension_response_rows (qs : list string) (s s' : session)
    (rows : list (list row)) :
  comprehension execute qs s = (s', Return rows) ->
  comprehension response qs s = (s', Return (zip_with Build_AskResponse qs rows)).
Proof.
  revert s rows. induction qs as [|q qs IH]; intros s rows Hc.
  - injection Hc as <- <-. reflexivity.
  - apply comprehension_return_inv in Hc as (s1 & b & bs & Hq & Hqs & ->).
    eapply comprehension_cons_return; [apply response_rows; exact Hq|].
    apply IH. exact Hqs.
Qed.

(** *** [GET /ask/] *)

(** C1, as amended: once the database id has resolved, a batch whose
    candidates all execute yields one entry per candidate, in input order,
    each with the candidate and its rows; a batch in which a candidate
    raises [OperationalError] fails as a whole with status 500, the detail
    quoting that candidate and the engine's message, and no candidate after
    it is sent to the engine.  The connection is closed either way. *)
Theorem ask_outcomes (id q : string) (w w1 : world) (outputs : list output) :
  pipe {| utterance := q; db_id := id |} num_return_sequences w = (w1, Return outputs) ->
  let path := db_path +:+ "/" +:+ id +:+ "/" +:+ id +:+ ".sqlite" in
  let candidates := List.map generated_text outputs in
  (forall s rows,
      comprehension execute candidates (connect path w1) = (s, Return rows) ->
      ask id q w = (close path s w1, Return (zip_with Build_AskResponse candidates rows))
      /\ length rows = length candidates)
  /\
  (forall pre failing post s1 rows s2 msg,
      candidates = pre ++ failing :: post ->
      comprehension execute pre (connect path w1) = (s1, Return rows) ->
      execute failing s1 = (s2, Raise (OperationalError msg)) ->
      ask id q w = (close path s2 w1,
                    Raise (HTTPException 500 (execution_error_detail failing msg)))
      /\ sent s2 = pre ++ [failing]).
Proof.
  intros Hpipe path candidates.
  assert (Hask : ask id q w =
                 with_connection path (comprehension response candidates) w1).
  { unfold ask.
    rewrite (bind_return _ _ _ _ _ (try_except_return _ _ _ _ _ Hpipe)).
    unfold with_connection. fold path.
    rewrite (comprehension_map generated_text response). reflexivity. }
  split.
  - intros s rows Hrun. split; [| eapply comprehension_length; exact Hrun].
    rewrite Hask. unfold with_connection.
    rewrite (comprehension_response_rows _ _ _ _ Hrun). reflexivity.
  - intros pre failing post s1 rows s2 msg Hsplit Hpre Hfail. split.
    + rewrite Hask. unfold with_connection. rewrite Hsplit.
      rewrite (comprehension_raise response pre failing post _ s1 s2
                 (zip_with Build_AskResponse pre rows)
                 (HTTPException 500 (execution_error_detail failing msg))).
      * reflexivity.
      * apply comprehension_response_rows. exact Hpre.
      * apply response_operational_error. exact Hfail.
    + rewrite (execute_sent _ _ _ _ Hfail).
      rewrite (comprehension_execute_sent _ _ _ _ Hpre). reflexivity.
Qed.

(** C5: a request whose database id does not resolve fails with status 404
    and leaves the world as it was: no connection is opened and no
    candidate reaches the engine. *)
Theorem ask_unknown_database (id q : string) (w : world) :
  ~ resolves id w ->
  ask id q w = (w, Raise (HTTPException 404 "unable to open database file")).
Proof.
  intros Hno. unfold resolves in Hno.
  assert (Hcache : schema_cache w !! id = None).
  { destruct (schema_cache w !! id) eqn:E; [| reflexivity].
    exfalso. apply Hno. left. eexists. reflexivity. }
  assert (Hfile : files w !! get_db_file_path db_path id = None).
  { destruct (files w !! get_db_file_path db_path id) eqn:E; [| reflexivity].
    exfalso. apply Hno. right. eexists. reflexivity. }
  unfold ask. apply bind_raise.
  erewrite try_except_caught; [reflexivity|].
  unfold pipe. apply bind_raise.
  unfold get_schema_from_cache. simpl. rewrite Hcache.
  unfold get_schema. rewrite Hfile. reflexivity.
Qed.

(** *** [POST /ask-with-schema/] *)

(** C6: the handler leaves the world as it was, so that no statement
    reaches any database; when the pipeline returns its candidates, one per
    requested sequence, the response is the list of their texts. *)
Theorem ask_with_schema_raw_candidates (body : Query) (w : world) :
  fst (ask_with_schema body w) = w /\
  forall outputs,
    pipe_with_schema {| qs_utterance := question body; qs_schema := db_schema body |}
                     num_return_sequences = Return outputs ->
    length outputs = num_return_sequences ->
    snd (ask_with_schema body w) = Return (List.map generated_text outputs) /\
    length (List.map generated_text outputs) = num_return_sequences.
Proof.
  unfold ask_with_schema, bind, try_except_OperationalError, pure_call, raise, ret.
  destruct (pipe_with_schema _ _) as [outputs | [msg | cls msg | st d]]; simpl.
  - split; [reflexivity|]. intros outs Heq Hlen. injection Heq as <-.
    split; [reflexivity|]. rewrite length_map. exact Hlen.
  - split; [reflexivity | discriminate].
  - split; [reflexivity | discriminate].
  - split; [reflexivity | discriminate].
Qed.

(** *** [POST /schema/{db_id}] *)

Lemma path_exists_true (path : string) (w : world) :
  path_exists path w = true <-> is_Some (files w !! path).
Proof. unfold path_exists. apply bool_decide_eq_true. Qed.

Lemma create_schema_conflict (id : string) (queries : list string) (w : world) :
  is_Some (files w !! get_db_file_path db_path id) ->
  create_schema id queries w = (w, Raise (HTTPException 409 "database already exists")).
Proof.
  intros Hex. unfold create_schema.
  apply path_exists_true in Hex. rewrite Hex. reflexivity.
Qed.

(** Whatever the outcome, the database file exists once [create_schema]
    has run: [connect] has created it if it was not there. *)
Lemma create_schema_file (id : string) (queries : list string) (w : world) :
  is_Some (files (fst (create_schema id queries w)) !! get_db_file_path db_path id).
Proof.
  unfold create_schema.
  destruct (path_exists (get_db_file_path db_path id) w) eqn:Hex.
  - apply path_exists_true. exact Hex.
  - unfold bind, with_connection.
    destruct (run_queries queries (connect (get_db_file_path db_path id) w))
      as [s [[] | e]]; simpl.
    + unfold get_schema. simpl. rewrite lookup_insert_eq. simpl.
      rewrite lookup_insert_eq. eexists. reflexivity.
    + rewrite lookup_insert_eq. eexists. reflexivity.
Qed.

(** C4: when the database file exists, [create_schema] fails with status
    409 and returns the world as it was, no statement having been sent; as
    the file exists after any first call, a second call for the same id
    always fails so. *)
Theorem create_schema_already_exists (id : string) (queries : list string) (w : world) :
  (is_Some (files w !! get_db_file_path db_path id) ->
   create_schema id queries w =
   (w, Raise (HTTPException 409 "database already exists")))
  /\
  (forall queries',
      create_schema id queries' (fst (create_schema id queries w)) =
      (fst (create_schema id queries w),
       Raise (HTTPException 409 "database already exists"))).
Proof.
  split.
  - apply create_schema_conflict.
  - intros queries'. apply create_schema_conflict. apply create_schema_file.
Qed.

(** C9: a [create_schema] call that fails with status 400 started without
    a database file and leaves one behind, so that any later call for the
    same id fails with status 409. *)
Theorem create_schema_failed_batch_blocks_retry
    (id : string) (queries : list string) (msg : string) (w w' : world) :
  create_schema id queries w = (w', Raise (HTTPException 400 msg)) ->
  files w !! get_db_file_path db_path id = None /\
  is_Some (files w' !! get_db_file_path db_path id) /\
  forall queries',
    create_schema id queries' w' =
    (w', Raise (HTTPException 409 "database already exists")).
Proof.
  intros Hfail.
  assert (Hafter : is_Some (files w' !! get_db_file_path db_path id)).
  { pose proof (create_schema_file id queries w) as Hf.
    rewrite Hfail in Hf. exact Hf. }
  repeat split.
  - destruct (files w !! get_db_file_path db_path id) as [db |] eqn:Hbefore;
      [| reflexivity].
    rewrite create_schema_conflict in Hfail by (rewrite Hbefore; eexists; reflexivity).
    discriminate Hfail.
  - exact Hafter.
  - intros queries'. apply create_schema_conflict. exact Hafter.
Qed.

(** *** [GET /serialized-schema/{db_id}/] *)

Lemma get_schema_from_cache_again (id : string) (w : world) :
  get_schema_from_cache id (fst (get_schema_from_cache id w)) =
  get_schema_from_cache id w
  /\ files (fst (get_schema_from_cache id w)) = files w.
Proof.
  unfold get_schema_from_cache.
  destruct (schema_cache w !! id) as [schema |] eqn:Hcache; simpl.
  - rewrite Hcache. split; reflexivity.
  - unfold get_schema.
    destruct (files w !! get_db_file_path db_path id) as [db |] eqn:Hfile; simpl.
    + rewrite lookup_insert_eq. split; reflexivity.
    + rewrite Hcache, Hfile. split; reflexivity.
Qed.

Lemma get_schema_from_cache_valid (id : string) (w : world) :
  is_Some (files w !! get_db_file_path db_path id) ->
  exists schema, snd (get_schema_from_cache id w) = Return schema.
Proof.
  intros [db Hfile]. unfold get_schema_from_cache.
  destruct (schema_cache w !! id) as [schema |]; simpl.
  - exists schema. reflexivity.
  - unfold get_schema. rewrite Hfile. simpl. eexists. reflexivity.
Qed.

Section Serialize.
Variables (q root id : string) (columns : list (Z * string)) (tables : list string).
Variables (type : string) (with_db_id with_db_content include_fk : bool).
Variable foreign_keys : list (nat * nat).

(** Without randomization the seed plays no part. *)
Lemma serialize_schema_seed (seed1 seed2 : nat) (w : world) :
  serialize_schema seed1 q root id columns tables type false
    with_db_id with_db_content include_fk foreign_keys w =
  serialize_schema seed2 q root id columns tables type false
    with_db_id with_db_content include_fk foreign_keys w.
Proof. reflexivity. Qed.

(** Serialization reads the database files and changes nothing. *)
Lemma serialize_schema_world (seed : nat) (randomized : bool) (w : world) :
  fst (serialize_schema seed q root id columns tables type randomized
         with_db_id with_db_content include_fk foreign_keys w) = w.
Proof.
  unfold serialize_schema. destruct (style_named type); [| reflexivity].
  destruct (with_db_content && negb (path_exists (get_db_file_path root id) w));
    reflexivity.
Qed.

Lemma serialize_schema_valid (seed : nat) (randomized : bool) (w : world) :
  is_Some (style_named type) ->
  is_Some (files w !! get_db_file_path root id) ->
  exists text,
    snd (serialize_schema seed q root id columns tables type randomized
           with_db_id with_db_content include_fk foreign_keys w) = Return text.
Proof.
  intros [style Hstyle] Hfile. unfold serialize_schema. rewrite Hstyle.
  apply path_exists_true in Hfile. rewrite Hfile, andb_false_r.
  eexists. reflexivity.
Qed.

End Serialize.

Lemma get_serialized_schema_unfold (seed : nat) (id type : string)
    (randomized with_db_id with_db_content : bool) (w : world) :
  get_serialized_schema seed id type randomized with_db_id with_db_content w =
  match get_schema_from_cache id w with
  | (w1, Return schema) =>
      (w1,
       match snd (serialize_schema seed "question" db_path id
                    (db_column_names schema) (db_table_names schema)
                    type randomized with_db_id with_db_content
                    include_foreign_keys_in_schema (db_foreign_keys schema) w1) with
       | Return serialized_schema =>
           Return (spider_get_input "question" serialized_schema "")
       | Raise e => Raise e
       end)
  | (w1, Raise e) => (w1, Raise e)
  end.
Proof.
  unfold get_serialized_schema, bind.
  destruct (get_schema_from_cache id w) as [w1 [schema | e]]; [| reflexivity].
  pose proof (serialize_schema_world "question" db_path id
                (db_column_names schema) (db_table_names schema) type
                with_db_id with_db_content include_foreign_keys_in_schema
                (db_foreign_keys schema) seed randomized w1) as Hw.
  destruct (serialize_schema _ _ _ _ _ _ _ _ _ _ _ _ w1) as [w2 [text | e]];
    simpl in Hw; subst w2; reflexivity.
Qed.

(** C7: with randomization off, a second run of the handler, whatever the
    state of the random number generator at either request, answers what
    the first run answered; for an id whose database file exists and a
    recognized style, that answer is a text. *)
Theorem get_serialized_schema_deterministic
    (seed1 seed2 : nat) (id type : string) (with_db_id with_db_content : bool)
    (w : world) :
  snd (get_serialized_schema seed2 id type false with_db_id with_db_content
         (fst (get_serialized_schema seed1 id type false with_db_id with_db_content w)))
  = snd (get_serialized_schema seed1 id type false with_db_id with_db_content w)
  /\
  (is_Some (files w !! get_db_file_path db_path id) ->
   is_Some (style_named type) ->
   exists text,
     snd (get_serialized_schema seed1 id type false with_db_id with_db_content w)
     = Return text).
Proof.
  pose proof (get_schema_from_cache_again id w) as [Hagain Hfiles].
  split.
  - rewrite (get_serialized_schema_unfold seed1).
    destruct (get_schema_from_cache id w) as [w1 [schema | e]] eqn:Hfirst;
      simpl in *; rewrite (get_serialized_schema_unfold seed2), Hagain; simpl.
    + rewrite (serialize_schema_seed _ _ _ _ _ _ _ _ _ _ seed2 seed1). reflexivity.
    + reflexivity.
  - intros Hfile Hstyle. rewrite (get_serialized_schema_unfold seed1).
    destruct (get_schema_from_cache_valid id w Hfile) as [schema Hschema].
    destruct (get_schema_from_cache id w) as [w1 [schema' | e]] eqn:Hfirst;
      simpl in *; [| discriminate Hschema].
    rewrite <- Hfiles in Hfile.
    destruct (serialize_schema_valid "question" db_path id
                (db_column_names schema') (db_table_names schema') type
                with_db_id with_db_content include_foreign_keys_in_schema
                (db_foreign_keys schema') seed1 false w1 Hstyle Hfile)
      as [text Htext].
    rewrite Htext. eexists. reflexivity.
Qed.

End ServerFacts.

(** ** The handlers on sqlite3 with the canned backend *)

Module Scenarios.
Import Canned.

(** C1 fails as stated: with a valid first candidate and a second one that
    names a missing table, the request yields no list of outcomes; it fails
    as a whole with status 500. *)
Lemma ask_mixed_batch_counterexample :
  snd (@ask _ (backend ["SELECT * FROM t"; "SELECT * FROM u"])
         "shop" "how many?" shop_world)
  = Raise (HTTPException 500
             (execution_error_detail "SELECT * FROM u" "no such table: u"))
  /\
  ~ exists outcomes : list AskResponse,
      snd (@ask _ (backend ["SELECT * FROM t"; "SELECT * FROM u"])
             "shop" "how many?" shop_world)
      = Return outcomes.
Proof.
  assert (Hraise :
            snd (@ask _ (backend ["SELECT * FROM t"; "SELECT * FROM u"])
                   "shop" "how many?" shop_world)
            = Raise (HTTPException 500
                       (execution_error_detail "SELECT * FROM u" "no such table: u")))
    by reflexivity.
  split; [exact Hraise|].
  intros [outcomes Houtcomes]. rewrite Hraise in Houtcomes. discriminate Houtcomes.
Qed.

Lemma ask_outcomes_witness :
  snd (@ask _ (backend ["SELECT * FROM t"; "SELECT * FROM t"])
         "shop" "how many?" shop_world)
  = Return [ {| query := "SELECT * FROM t"; execution_results := [] |};
             {| query := "SELECT * FROM t"; execution_results := [] |} ]
  /\
  snd (@ask _ (backend ["SELECT * FROM t"; "SELECT * FROM u"])
         "shop" "how many?" shop_world)
  = Raise (HTTPException 500
             (execution_error_detail "SELECT * FROM u" "no such table: u")).
Proof.
  split.
  - pose proof (@ask_outcomes _ (backend ["SELECT * FROM t"; "SELECT * FROM t"])
                  "shop" "how many?" shop_world _
                  [Build_output "SELECT * FROM t"; Build_output "SELECT * FROM t"]
                  (pair_eta_snd _ _ eq_refl)) as Hthm.
    cbv zeta in Hthm. destruct Hthm as [Hrows _].
    destruct (Hrows _ [[]; []] (pair_eta_snd _ _ eq_refl)) as [Hask _].
    rewrite Hask. reflexivity.
  - pose proof (@ask_outcomes _ (backend ["SELECT * FROM t"; "SELECT * FROM u"])
                  "shop" "how many?" shop_world _
                  [Build_output "SELECT * FROM t"; Build_output "SELECT * FROM u"]
                  (pair_eta_snd _ _ eq_refl)) as Hthm.
    cbv zeta in Hthm. destruct Hthm as [_ Hfail].
    destruct (Hfail ["SELECT * FROM t"] "SELECT * FROM u" [] _ [[]] _
                "no such table: u" eq_refl
                (pair_eta_snd _ _ eq_refl) (pair_eta_snd _ _ eq_refl)) as [Hask _].
    rewrite Hask. reflexivity.
Defined.

Lemma ask_unknown_database_witness :
  ~ @resolves _ (backend ["SELECT * FROM t"]) "shp" shop_world /\
  @ask _ (backend ["SELECT * FROM t"]) "shp" "how many?" shop_world
  = (shop_world, Raise (HTTPException 404 "unable to open database file")).
Proof.
  assert (Hno : ~ @resolves _ (backend ["SELECT * FROM t"]) "shp" shop_world).
  { intros [[x Hx] | [x Hx]]; discriminate Hx. }
  split; [exact Hno|].
  apply (@ask_unknown_database _ (backend ["SELECT * FROM t"])). exact Hno.
Defined.

Lemma ask_with_schema_raw_candidates_witness :
  snd (@ask_with_schema _ (backend ["SELECT * FROM t"; "DROP TABLE t"; "SELECT 1"])
         {| question := "how many?"; db_schema := " | shop | t : x" |} shop_world)
  = Return ["SELECT * FROM t"; "DROP TABLE t"]
  /\
  fst (@ask_with_schema _ (backend ["SELECT * FROM t"; "DROP TABLE t"; "SELECT 1"])
         {| question := "how many?"; db_schema := " | shop | t : x" |} shop_world)
  = shop_world.
Proof.
  destruct (@ask_with_schema_raw_candidates _
              (backend ["SELECT * FROM t"; "DROP TABLE t"; "SELECT 1"])
              {| question := "how many?"; db_schema := " | shop | t : x" |}
              shop_world) as [Hworld Hcandidates].
  split; [| exact Hworld].
  destruct (Hcandidates [Build_output "SELECT * FROM t"; Build_output "DROP TABLE t"])
    as [Hresponse _]; [reflexivity | reflexivity |].
  exact Hresponse.
Defined.

Lemma create_schema_already_exists_witness :
  is_Some (files shop_world !! shop_file) /\
  @create_schema _ (backend []) "shop" ["DROP TABLE t"] shop_world
  = (shop_world, Raise (HTTPException 409 "database already exists")).
Proof.
  assert (Hfile : is_Some (files shop_world !! shop_file)).
  { exists [("t", [])]. reflexivity. }
  split; [exact Hfile|].
  apply (proj1 (@create_schema_already_exists _ (backend []) "shop"
                  ["DROP TABLE t"] shop_world)).
  exact Hfile.
Defined.

Lemma create_schema_failed_batch_witness :
  snd (@create_schema _ (backend []) "fresh"
         ["CREATE TABLE a (x)"; "CREATE TABL b (y)"] empty_world)
  = Raise (HTTPException 400 "syntax error")
  /\
  snd (@create_schema _ (backend []) "fresh" ["CREATE TABLE a (x)"]
         (fst (@create_schema _ (backend []) "fresh"
                 ["CREATE TABLE a (x)"; "CREATE TABL b (y)"] empty_world)))
  = Raise (HTTPException 409 "database already exists").
Proof.
  split; [reflexivity|].
  destruct (@create_schema_failed_batch_blocks_retry _ (backend []) "fresh"
              ["CREATE TABLE a (x)"; "CREATE TABL b (y)"] "syntax error"
              empty_world _ (pair_eta_snd _ _ eq_refl)) as (_ & _ & Hretry).
  rewrite Hretry. reflexivity.
Defined.

Lemma get_serialized_schema_deterministic_witness :
  is_Some (files shop_world !! shop_file) /\
  is_Some (@style_named _ (backend []) "peteshaw") /\
  exists text,
    snd (@get_serialized_schema _ (backend []) 0 "shop" "peteshaw" false true false
           shop_world) = Return text.
Proof.
  assert (Hfile : is_Some (files shop_world !! shop_file)).
  { exists [("t", [])]. reflexivity. }
  assert (Hstyle : is_Some (@style_named _ (backend []) "peteshaw")).
  { exists peteshaw. reflexivity. }
  split; [exact Hfile|]. split; [exact Hstyle|].
  exact (proj2 (@get_serialized_schema_deterministic _ (backend [])
                  0 1 "shop" "peteshaw" true false shop_world) Hfile Hstyle).
Defined.

(** With randomization on, the answer follows the seed. *)
Example get_serialized_schema_randomized :
  snd (@get_serialized_schema _ (backend []) 0 "fresh" "peteshaw" true true false
         {| files := {[ "database/fresh/fresh.sqlite" := [("a", []); ("b", [])] ]};
            schema_cache := ∅; sql_trace := [] |})
  = Return "question  | fresh | a : x | b : x"
  /\
  snd (@get_serialized_schema _ (backend []) 1 "fresh" "peteshaw" true true false
         {| files := {[ "database/fresh/fresh.sqlite" := [("a", []); ("b", [])] ]};
            schema_cache := ∅; sql_trace := [] |})
  = Return "question  | fresh | b : x | a : x".
Proof. split; vm_compute; reflexivity. Qed.

(** C2, at an input where the handler departs from it: the second
    statement of the batch is malformed, the call fails with status 400,
    and the table created by the first statement is on disk all the same;
    the statement ran outside any transaction, so closing the connection
    without a commit did not undo it. *)
Theorem update_schema_failed_batch_persists :
  files shop_world !! shop_file = Some [("t", [])] /\
  snd (@update_schema _ (backend []) "shop"
         ["CREATE TABLE a (x)"; "CREATE TABL b (y)"] shop_world)
  = Raise (HTTPException 400 "syntax error") /\
  files (fst (@update_schema _ (backend []) "shop"
                ["CREATE TABLE a (x)"; "CREATE TABL b (y)"] shop_world))
    !! shop_file
  = Some [("t", []); ("a", [])].
Proof. repeat split. Qed.

(** Work done inside the transaction that an INSERT opens is undone when
    the batch fails: here the file is left as it was. *)
Example update_schema_failed_batch_in_transaction :
  snd (@update_schema _ (backend []) "shop"
         ["INSERT INTO t DEFAULT VALUES"; "CREATE TABLE a (x)"; "CREATE TABL b (y)"]
         shop_world)
  = Raise (HTTPException 400 "syntax error") /\
  files (fst (@update_schema _ (backend []) "shop"
                ["INSERT INTO t DEFAULT VALUES"; "CREATE TABLE a (x)";
                 "CREATE TABL b (y)"] shop_world))
    !! shop_file
  = Some [("t", [])].
Proof. split; reflexivity. Qed.

End Scenarios.

(** ** More on [GET /database/] *)

Module ListingExtras.
Import Pathlib Listing ListingShapes PathlibFacts ListingFacts.

Lemma below_joinpath (dir : Path) (contents : list entry) (p : Path) :
  below dir contents p -> exists d n, p = joinpath d n.
Proof.
  induction 1 as [dir contents e He | dir contents n sub p Hn Hb IH].
  - exists dir, (entry_name e). reflexivity.
  - exact IH.
Qed.

(** X1: for any tree, the ids listed are exactly the stems of the entries
    named [*.sqlite], at any depth below the root, whose stem is the stem
    of the name of the directory that holds them. *)
Theorem get_database_list_exact
    (db_dir : Path) (contents : list entry) (id : string) :
  In id (get_database_list db_dir contents) <->
  exists dir n,
    below db_dir contents (joinpath dir n) /\
    (exists pre, n = pre +:+ ".sqlite") /\
    stem_of_name n = stem_of_name (name dir) /\
    stem_of_name n = id.
Proof.
  rewrite get_database_list_iff. split.
  - intros [p [Hb [Hm [Heq Hid]]]].
    destruct (below_joinpath _ _ _ Hb) as [dir [n ->]].
    unfold stem in Heq, Hid. rewrite parent_joinpath in Heq.
    rewrite name_joinpath in Hm, Heq, Hid.
    exists dir, n. repeat split; assumption.
  - intros [dir [n [Hb [Hm [Heq Hid]]]]]. exists (joinpath dir n).
    unfold stem. rewrite parent_joinpath, name_joinpath.
    repeat split; assumption.
Qed.

Lemma entry_name_as_directory (e : entry) :
  entry_name (as_directory e) = entry_name e.
Proof. destruct e; reflexivity. Qed.

Lemma rglob_in_as_directory (pat : string) (e : entry) :
  forall dir, rglob_in pat dir (as_directory e) = rglob_in pat dir e.
Proof.
  induction e as [n | n children IH] using entry_tree_ind; intros dir.
  - reflexivity.
  - simpl. f_equal.
    + f_equal. rewrite List.map_map. apply List.map_ext.
      intros c. rewrite entry_name_as_directory. reflexivity.
    + induction IH as [| c children Hc _ IHchildren]; [reflexivity|].
      simpl. rewrite entry_name_as_directory, Hc, IHchildren. reflexivity.
Qed.

(** X2: the handler does not tell files from directories; the listing is
    the same when every file of the tree is replaced by an empty directory
    of the same name. *)
Theorem get_database_list_as_directories (db_dir : Path) (contents : list entry) :
  get_database_list db_dir (List.map as_directory contents)
  = get_database_list db_dir contents.
Proof.
  unfold get_database_list, rglob.
  change (Dir (name db_dir) (List.map as_directory contents))
    with (as_directory (Dir (name db_dir) contents)).
  rewrite rglob_in_as_directory. reflexivity.
Qed.

(** X3: whatever is listed for a sub-directory taken as the root is listed
    for the root itself. *)
Theorem get_database_list_subdirectory
    (db_dir : Path) (contents : list entry) (n : string) (sub : list entry)
    (id : string) :
  In (Dir n sub) contents ->
  In id (get_database_list (joinpath db_dir n) sub) ->
  In id (get_database_list db_dir contents).
Proof.
  intros Hn Hid. apply get_database_list_iff in Hid as [p [Hb Hrest]].
  apply get_database_list_iff. exists p. split; [| exact Hrest].
  eapply below_nested; eassumption.
Qed.

Lemma get_database_list_subdirectory_witness :
  In (Dir "a" [Dir "x" [File "x.sqlite"]]) [Dir "a" [Dir "x" [File "x.sqlite"]]] /\
  In "x" (get_database_list ["root"; "a"] [Dir "x" [File "x.sqlite"]]) /\
  In "x" (get_database_list ["root"] [Dir "a" [Dir "x" [File "x.sqlite"]]]).
Proof.
  assert (Hdir : In (Dir "a" [Dir "x" [File "x.sqlite"]])
                    [Dir "a" [Dir "x" [File "x.sqlite"]]]) by (left; reflexivity).
  assert (Hsub : In "x" (get_database_list ["root"; "a"] [Dir "x" [File "x.sqlite"]]))
    by (left; reflexivity).
  split; [exact Hdir|]. split; [exact Hsub|].
  exact (get_database_list_subdirectory ["root"] _ "a" _ "x" Hdir Hsub).
Defined.

(** X4: nothing is merged; the listing of a directory is, up to order, the
    listing of one part of its contents followed by the listing of the
    rest, so an id found twice is listed twice. *)
Theorem get_database_list_app (db_dir : Path) (contents1 contents2 : list entry) :
  get_database_list db_dir (contents1 ++ contents2)
  ≡ₚ get_database_list db_dir contents1 ++ get_database_list db_dir contents2.
Proof.
  unfold get_database_list, rglob. simpl.
  rewrite List.map_app, List.flat_map_app.
  rewrite !List.filter_app, !List.map_app.
  rewrite <- !app_assoc. apply Permutation_app_head.
  rewrite !app_assoc. apply Permutation_app_tail.
  apply Permutation_app_comm.
Qed.

End ListingExtras.

(** ** More on the handlers, over any engine and backend *)

Section HandlerExtras.
Context `{Backend}.



Lemma ask_after_pipe (id q : string) (w w1 : world) (outputs : list output) :
  pipe {| utterance := q; db_id := id |} num_return_sequences w = (w1, Return outputs) ->
  ask id q w =
  with_connection (db_path +:+ "/" +:+ id +:+ "/" +:+ id +:+ ".sqlite")
    (comprehension response (List.map generated_text outputs)) w1.
Proof.
  intros Hpipe. unfold ask.
  rewrite (bind_return _ _ _ _ _ (try_except_return _ _ _ _ _ Hpipe)).
  unfold with_connection.
  rewrite (comprehension_map generated_text response). reflexivity.
Qed.


Lemma response_other_exception (q : string) (s s' : session) (e : exn) :
  execute q s = (s', Raise e) ->
  (forall msg, e <> OperationalError msg) ->
  response q s = (s', Raise e).
Proof.
  intros He Hother. unfold response, try_except_OperationalError.
  rewrite (bind_raise _ _ _ _ _ He).
  destruct e as [msg | cls msg | st d]; [| reflexivity | reflexivity].
  exfalso. exact (Hother msg eq_refl).
Qed.

(** X6: a candidate that raises anything but [OperationalError] is not
    answered with a 500 of the handler's making: the exception leaves [ask]
    as it is, once the connection is closed, and no candidate after it is
    sent to the engine. *)
Theorem ask_other_exception
    (id q : string) (w w1 : world) (outputs : list output)
    (pre : list string) (failing : string) (post : list string)
    (s1 s2 : session) (rows : list (list row)) (e : exn) :
  pipe {| utterance := q; db_id := id |} num_return_sequences w = (w1, Return outputs) ->
  List.map generated_text outputs = pre ++ failing :: post ->
  comprehension execute pre
    (connect (db_path +:+ "/" +:+ id +:+ "/" +:+ id +:+ ".sqlite") w1)
  = (s1, Return rows) ->
  execute failing s1 = (s2, Raise e) ->
  (forall msg, e <> OperationalError msg) ->
  ask id q w
  = (close (db_path +:+ "/" +:+ id +:+ "/" +:+ id +:+ ".sqlite") s2 w1, Raise e)
  /\ sent s2 = pre ++ [failing].
Proof.
  intros Hpipe Hsplit Hpre Hfail Hother. split.
  - rewrite (ask_after_pipe _ _ _ _ _ Hpipe). unfold with_connection.
    rewrite Hsplit.
    rewrite (comprehension_raise response pre failing post _ s1 s2
               (zip_with Build_AskResponse pre rows) e).
    + reflexivity.
    + apply comprehension_response_rows. exact Hpre.
    + apply response_other_exception; assumption.
  - rewrite (execute_sent _ _ _ _ Hfail).
    rewrite (comprehension_execute_sent _ _ _ _ Hpre). reflexivity.
Qed.

(** The [except] clause of the schema handlers, applied to what a statement
    raised. *)
Lemma run_queries_failure
    (queries pre : list string) (failing : string) (post : list string)
    (s0 s1 s2 : session) (rows : list (list row)) (e : exn) :
  queries = pre ++ failing :: post ->
  comprehension execute pre s0 = (s1, Return rows) ->
  execute failing s1 = (s2, Raise e) ->
  run_queries queries s0
  = (s2, Raise match e with
               | OperationalError msg => HTTPException 400 msg
               | _ => e
               end).
Proof.
  intros -> Hpre Hfail. unfold run_queries, try_except_OperationalError.
  rewrite (bind_raise _ _ _ _ _
             (comprehension_raise execute pre failing post _ _ _ _ _ Hpre Hfail)).
  destruct e; reflexivity.
Qed.

Lemma update_schema_existing (id : string) (queries : list string) (w : world) :
  is_Some (files w !! get_db_file_path db_path id) ->
  update_schema id queries w
  = bind (with_connection (get_db_file_path db_path id) (run_queries queries))
         (fun _ => get_schema db_path id) w.
Proof.
  intros Hex. unfold update_schema.
  apply path_exists_true in Hex. rewrite Hex. reflexivity.
Qed.

Lemma create_schema_fresh (id : string) (queries : list string) (w : world) :
  files w !! get_db_file_path db_path id = None ->
  create_schema id queries w
  = bind (with_connection (get_db_file_path db_path id) (run_queries queries))
         (fun _ => get_schema db_path id) w.
Proof.
  intros Hnone. unfold create_schema.
  destruct (path_exists (get_db_file_path db_path id) w) eqn:Hex; [| reflexivity].
  apply path_exists_true in Hex. rewrite Hnone in Hex.
  destruct Hex as [db Hdb]. discriminate Hdb.
Qed.

(** X7: [update_schema] on an id without a database file fails with status
    404 and returns the world as it was: no file is created and nothing is
    sent to the engine. *)
Theorem update_schema_not_found (id : string) (queries : list string) (w : world) :
  files w !! get_db_file_path db_path id = None ->
  update_schema id queries w = (w, Raise (HTTPException 404 "database not found")).
Proof.
  intros Hnone. unfold update_schema.
  destruct (path_exists (get_db_file_path db_path id) w) eqn:Hex; [| reflexivity].
  apply path_exists_true in Hex. rewrite Hnone in Hex.
  destruct Hex as [db Hdb]. discriminate Hdb.
Qed.

(** X8: when a statement of an [update_schema] batch raises, the statements
    after it are not sent, nothing is committed, and the connection is
    closed on the state the failing statement left; [OperationalError] is
    answered with status 400 and the engine's message, any other exception
    leaves the handler as it is. *)
Theorem update_schema_first_failure
    (id : string) (queries : list string) (w : world)
    (pre : list string) (failing : string) (post : list string)
    (s1 s2 : session) (rows : list (list row)) (e : exn) :
  is_Some (files w !! get_db_file_path db_path id) ->
  queries = pre ++ failing :: post ->
  comprehension execute pre (connect (get_db_file_path db_path id) w)
  = (s1, Return rows) ->
  execute failing s1 = (s2, Raise e) ->
  update_schema id queries w
  = (close (get_db_file_path db_path id) s2 w,
     Raise match e with
           | OperationalError msg => HTTPException 400 msg
           | _ => e
           end)
  /\ sent s2 = pre ++ [failing].
Proof.
  intros Hex Hsplit Hpre Hfail. split.
  - rewrite (update_schema_existing _ _ _ Hex). apply bind_raise.
    unfold with_connection.
    rewrite (run_queries_failure _ _ _ _ _ _ _ _ _ Hsplit Hpre Hfail). reflexivity.
  - rewrite (execute_sent _ _ _ _ Hfail).
    rewrite (comprehension_execute_sent _ _ _ _ Hpre). reflexivity.
Qed.

(** X9: the same for [create_schema] on a fresh id; the file that [connect]
    created holds what the failing connection left on disk. *)
Theorem create_schema_first_failure
    (id : string) (queries : list string) (w : world)
    (pre : list string) (failing : string) (post : list string)
    (s1 s2 : session) (rows : list (list row)) (e : exn) :
  files w !! get_db_file_path db_path id = None ->
  queries = pre ++ failing :: post ->
  comprehension execute pre (connect (get_db_file_path db_path id) w)
  = (s1, Return rows) ->
  execute failing s1 = (s2, Raise e) ->
  create_schema id queries w
  = (close (get_db_file_path db_path id) s2 w,
     Raise match e with
           | OperationalError msg => HTTPException 400 msg
           | _ => e
           end)
  /\ sent s2 = pre ++ [failing]
  /\ files (close (get_db_file_path db_path id) s2 w) !! get_db_file_path db_path id
     = Some (sqlite_close (handle s2)).
Proof.
  intros Hnone Hsplit Hpre Hfail. repeat split.
  - rewrite (create_schema_fresh _ _ _ Hnone). apply bind_raise.
    unfold with_connection.
    rewrite (run_queries_failure _ _ _ _ _ _ _ _ _ Hsplit Hpre Hfail). reflexivity.
  - rewrite (execute_sent _ _ _ _ Hfail).
    rewrite (comprehension_execute_sent _ _ _ _ Hpre). reflexivity.
  - apply lookup_insert_eq.
Qed.


End HandlerExtras.

(** ** More on the handlers, on the two engines *)

Module ExtraScenarios.


Lemma ask_other_exception_witness :
  snd (@ask _ (UniqueColumn.backend
                 ["INSERT INTO t VALUES (2)"; "INSERT INTO t VALUES (1)"])
         "keys" "add them" UniqueColumn.keys_world)
  = Raise (PyError "IntegrityError" "UNIQUE constraint failed: t.k")
  /\
  files (fst (@ask _ (UniqueColumn.backend
                        ["INSERT INTO t VALUES (2)"; "INSERT INTO t VALUES (1)"])
                "keys" "add them" UniqueColumn.keys_world))
    !! "database/keys/keys.sqlite"
  = Some ["1"].
Proof.
  destruct (@ask_other_exception _
              (UniqueColumn.backend
                 ["INSERT INTO t VALUES (2)"; "INSERT INTO t VALUES (1)"])
              "keys" "add them" UniqueColumn.keys_world _
              [Build_output "INSERT INTO t VALUES (2)";
               Build_output "INSERT INTO t VALUES (1)"]
              ["INSERT INTO t VALUES (2)"] "INSERT INTO t VALUES (1)" [] _ _ [[]]
              (PyError "IntegrityError" "UNIQUE constraint failed: t.k")
              (pair_eta_snd _ _ eq_refl) eq_refl
              (pair_eta_snd _ _ eq_refl) (pair_eta_snd _ _ eq_refl))
    as [Hask _].
  { intros msg Hmsg. discriminate Hmsg. }
  rewrite Hask. split; reflexivity.
Defined.

Lemma update_schema_not_found_witness :
  files Canned.shop_world !! "database/shp/shp.sqlite" = None /\
  @update_schema _ (Canned.backend []) "shp" ["DROP TABLE t"] Canned.shop_world
  = (Canned.shop_world, Raise (HTTPException 404 "database not found")).
Proof.
  assert (Hnone : files Canned.shop_world !! "database/shp/shp.sqlite" = None)
    by reflexivity.
  split; [exact Hnone|].
  exact (@update_schema_not_found _ (Canned.backend []) "shp" ["DROP TABLE t"]
           Canned.shop_world Hnone).
Defined.

Lemma update_schema_first_failure_witness :
  snd (@update_schema _ (UniqueColumn.backend []) "keys"
         ["INSERT INTO t VALUES (2)"; "INSERT INTO t VALUES (1)";
          "INSERT INTO t VALUES (3)"] UniqueColumn.keys_world)
  = Raise (PyError "IntegrityError" "UNIQUE constraint failed: t.k")
  /\
  sql_trace (fst (@update_schema _ (UniqueColumn.backend []) "keys"
                    ["INSERT INTO t VALUES (2)"; "INSERT INTO t VALUES (1)";
                     "INSERT INTO t VALUES (3)"] UniqueColumn.keys_world))
  = ["INSERT INTO t VALUES (2)"; "INSERT INTO t VALUES (1)"]
  /\
  files (fst (@update_schema _ (UniqueColumn.backend []) "keys"
                ["INSERT INTO t VALUES (2)"; "INSERT INTO t VALUES (1)";
                 "INSERT INTO t VALUES (3)"] UniqueColumn.keys_world))
    !! "database/keys/keys.sqlite"
  = Some ["1"].
Proof.
  destruct (@update_schema_first_failure _ (UniqueColumn.backend []) "keys"
              ["INSERT INTO t VALUES (2)"; "INSERT INTO t VALUES (1)";
               "INSERT INTO t VALUES (3)"] UniqueColumn.keys_world
              ["INSERT INTO t VALUES (2)"] "INSERT INTO t VALUES (1)"
              ["INSERT INTO t VALUES (3)"] _ _ [[]]
              (PyError "IntegrityError" "UNIQUE constraint failed: t.k")
              (ex_intro _ ["1"] eq_refl) eq_refl
              (pair_eta_snd _ _ eq_refl) (pair_eta_snd _ _ eq_refl))
    as [Hupdate _].
  rewrite Hupdate. repeat split.
Defined.

Lemma create_schema_first_failure_witness :
  snd (@create_schema _ (Canned.backend []) "fresh"
         ["CREATE TABLE a (x)"; "CREATE TABL b (y)"] Canned.empty_world)
  = Raise (HTTPException 400 "syntax error")
  /\
  files (fst (@create_schema _ (Canned.backend []) "fresh"
                ["CREATE TABLE a (x)"; "CREATE TABL b (y)"] Canned.empty_world))
    !! "database/fresh/fresh.sqlite"
  = Some [("a", [])].
Proof.
  destruct (@create_schema_first_failure _ (Canned.backend []) "fresh"
              ["CREATE TABLE a (x)"; "CREATE TABL b (y)"] Canned.empty_world
              ["CREATE TABLE a (x)"] "CREATE TABL b (y)" [] _ _ [[]]
              (OperationalError "syntax error")
              eq_refl eq_refl
              (pair_eta_snd _ _ eq_refl) (pair_eta_snd _ _ eq_refl))
    as (Hcreate & _ & _).
  rewrite Hcreate. split; reflexivity.
Defined.


End ExtraScenarios.
